(** * pylgrim: coordinate conversions of [proto/coord/ecef.py]

    A shallow embedding of the ECEF / geodetic / ENU conversions and the
    properties of the specification that can be stated about them.

    Numbers are IEEE 754 binary64 values, the [float64] of numpy, modelled
    by the Standard Library's [spec_float] with its correctly rounded
    [+ - * / sqrt] and its comparisons.  The functions that numpy takes
    from the C mathematical library ([pow], [atan2], [sin], [cos]) are a
    parameter of the development, see [Libm].  Arguments are arrays
    of [float64], as the docstrings say; on them no operation of the
    program raises an exception: a division by zero gives an infinity or
    NaN, as numpy defines it. *)

From Stdlib Require Import ZArith Bool List Lia.
From Stdlib Require Import Floats.SpecFloat Floats.PrimFloat Floats.FloatOps.
Import ListNotations.

Set Warnings "-inexact-float".

(** ** binary64 arithmetic *)

Module F64.

Definition t : Type := spec_float.

(** A decimal literal of the source, rounded to the nearest binary64
    value as Python's parser does. *)
Definition lit (x : PrimFloat.float) : t := Prim2SF x.

Definition add : t -> t -> t := SFadd prec emax.
Definition sub : t -> t -> t := SFsub prec emax.
Definition mul : t -> t -> t := SFmul prec emax.
Definition div : t -> t -> t := SFdiv prec emax.
Definition sqrt : t -> t := SFsqrt prec emax.
Definition neg : t -> t := SFopp.
Definition abs : t -> t := SFabs.

Definition ltb : t -> t -> bool := SFltb.
Definition eqb : t -> t -> bool := SFeqb.
(** Python's [x > y]. *)
Definition gtb (x y : t) : bool := SFltb y x.

Definition nan : t := S754_nan.
Definition inf : t := S754_infinity false.
Definition zero : t := S754_zero false.
Definition one : t := Eval vm_compute in lit 1.
Definition two : t := Eval vm_compute in lit 2.
Definition three : t := Eval vm_compute in lit 3.

(** numpy's [isnan]. *)
Definition isnan (x : t) : bool :=
  match x with S754_nan => true | _ => false end.

(** Truth value of a [float64]: false for [+0.0] and [-0.0] only;
    NaN and the infinities are true. *)
Definition truthy (x : t) : bool := negb (eqb x zero).

(** Python's [x or y] on numbers. *)
Definition py_or (x y : t) : t := if truthy x then x else y.

(** numpy's [sign]: [1], [-1], [0] for both zeros, NaN for NaN. *)
Definition sign (x : t) : t :=
  if ltb zero x then one
  else if ltb x zero then neg one
  else if eqb x zero then zero
  else x.

(** numpy's [degrees] and [deg2rad] multiply by a constant quotient. *)
Definition pi : t := Eval vm_compute in lit 3.141592653589793.
Definition c180 : t := Eval vm_compute in lit 180.
Definition degrees (x : t) : t := mul x (div c180 pi).
Definition deg2rad (x : t) : t := mul x (div pi c180).

End F64.

Declare Scope f64_scope.
Delimit Scope f64_scope with f64.
Bind Scope f64_scope with F64.t.
Infix "+" := F64.add : f64_scope.
Infix "-" := F64.sub : f64_scope.
Infix "*" := F64.mul : f64_scope.
Infix "/" := F64.div : f64_scope.
Notation "- x" := (F64.neg x) : f64_scope.
Infix "<?" := F64.ltb : f64_scope.
Infix ">?" := F64.gtb (at level 70, no associativity) : f64_scope.

(** ** The C mathematical library *)

(** [pow] is what [x ** n] and [np.power] call on [float64] values;
    [atan2] is [math.atan2]; [sin] and [cos] are numpy's. *)
Record Libm : Type := MkLibm {
  pow : F64.t -> F64.t -> F64.t;
  atan2 : F64.t -> F64.t -> F64.t;
  sin : F64.t -> F64.t;
  cos : F64.t -> F64.t
}.

(** The special values of C99 Annex F (F.9.1.4, F.9.4.4) that the results
    below depend on. *)
Record LibmSpec (L : Libm) : Prop := MkLibmSpec {
  pow_nan_2 : pow L F64.nan F64.two = F64.nan;
  pow_nan_3 : pow L F64.nan F64.three = F64.nan;
  pow_nan_mhalf : pow L F64.nan (F64.lit (-0.5)) = F64.nan;
  pow_zero_2 : pow L F64.zero F64.two = F64.zero;
  pow_inf_2 : pow L F64.inf F64.two = F64.inf;
  pow_ninf_2 : pow L (F64.neg F64.inf) F64.two = F64.inf;
  pow_inf_mhalf : pow L F64.inf (F64.lit (-0.5)) = F64.zero;
  atan2_nan : forall x, atan2 L F64.nan x = F64.nan;
  sin_nan : sin L F64.nan = F64.nan;
  cos_nan : cos L F64.nan = F64.nan
}.

(** ** Vectors *)

(** A numpy array of three [float64]: an ECEF position [(X, Y, Z)], a
    geodetic position [(lat, lon, alt)] or an ENU vector. *)
Record vec3 : Type := Vec3 { at0 : F64.t; at1 : F64.t; at2 : F64.t }.

Definition vec3_sub (u v : vec3) : vec3 :=
  Vec3 (at0 u - at0 v)%f64 (at1 u - at1 v)%f64 (at2 u - at2 v)%f64.

(** ** The program *)

Section Program.

Variable L : Libm.

Local Open Scope f64_scope.

Local Notation "x ^2" := (pow L x F64.two) (at level 1, format "x ^2").
Local Notation "x ^3" := (pow L x F64.three) (at level 1, format "x ^3").
Local Notation "# x" := (F64.lit x%float) (at level 7, format "# x").

(** [lat_lon_alt_to_ecef_xyz(R)] *)
Definition lat_lon_alt_to_ecef_xyz (R : vec3) : vec3 :=
  let a2 := (#6378137.0)^2 in
  let b2 := (#6356752.314245)^2 in
  let radius := fun phi =>
    F64.sqrt (a2 * (cos L phi)^2 + b2 * (sin L phi)^2) in
  let f := F64.deg2rad (at0 R) in
  let t := F64.deg2rad (at1 R) in
  let h := at2 R in
  let X := cos L t * cos L f * (h + a2 / radius f) in
  let Y := sin L t * cos L f * (h + a2 / radius f) in
  let Z := sin L f * (h + b2 / radius f) in
  Vec3 X Y Z.

(** *** [ecef_to_lat_lon_alt(R, deg=True)] *)

(** The body of [for i in range(10)], with [n] rounds left. *)
Fixpoint lat_lon_alt_rounds (n : nat) (p Z T : F64.t) : F64.t :=
  match n with
  | O => T
  | S n' =>
    let e1 := #0.99664718932816898 in
    let c := #42697.67279723605 in
    let C := pow L (F64.one + T^2) (#(-0.5)) in
    let S := C * T in
    let T_new := (e1 * Z + c * S^3) / (p - c * C^3) in
    let delta := T_new - T in
    let T := T_new in
    if F64.abs delta / T <? #1e-9 then T
    else lat_lon_alt_rounds n' p Z T
  end.

Definition ecef_to_lat_lon_alt (R : vec3) (deg : bool) : vec3 :=
  let a := #6378137.0 in
  let b := #6356752.314245 in
  let e := #0.08181919092890624 in
  let e1 := #0.99664718932816898 in
  let p := F64.sqrt ((at0 R)^2 + (at1 R)^2) in
  let T := F64.py_or (at2 R / (e1 * p)) F64.one in
  let T := lat_lon_alt_rounds 10 p (at2 R) T in
  let theta := atan2 L (at1 R) (at0 R) in
  let phi := atan2 L T e1 in
  let T1 := F64.one + T^2 in
  let h :=
    if p >? at2 R
    then F64.sqrt (T1 - e^2) / e1 * (p - a / F64.sqrt T1)
    else F64.sqrt (T1 - e^2) * (at2 R / T - b / F64.sqrt T1) in
  if deg then Vec3 (F64.degrees phi) (F64.degrees theta) h
  else Vec3 phi theta h.

(** *** [ecef_to_spherical(R, deg=True)] *)

(** The body of its own [for i in range(10)], a second copy in the source. *)
Fixpoint spherical_rounds (n : nat) (p Z T : F64.t) : F64.t :=
match n with
| O => T
| S n' =>
  let e1 := #1.0 in
  let c := #0.0 in
  let C := pow L (F64.one + T^2) (#(-0.5)) in
  let S := C * T in
  let T_new := (e1 * Z + c * S^3) / (p - c * C^3) in
  let delta := T_new - T in
  let T := T_new in
  if F64.abs delta / T <? #1e-9 then T
  else spherical_rounds n' p Z T
end.

Definition ecef_to_spherical (R : vec3) (deg : bool) : vec3 :=
let a := #6366255.89 in
let b := #6366255.89 in
let e := #0.0 in
let e1 := #1.0 in
let p := F64.sqrt ((at0 R)^2 + (at1 R)^2) in
let T := F64.py_or (at2 R / (e1 * p)) F64.one in
let T := spherical_rounds 10 p (at2 R) T in
let theta := atan2 L (at1 R) (at0 R) in
let phi := atan2 L T e1 in
let T1 := F64.one + T^2 in
let h :=
  if p >? at2 R
  then F64.sqrt (T1 - e^2) / e1 * (p - a / F64.sqrt T1)
  else F64.sqrt (T1 - e^2) * (at2 R / T - b / F64.sqrt T1) in
if deg then Vec3 (F64.degrees phi) (F64.degrees theta) h
else Vec3 phi theta h.

(** *** [ecef_to_lat_lon_alt1(R, deg=True)] *)

Definition max_iter : nat := 5.

(** How the [for] loop of [ecef_to_lat_lon_alt1] is left: through
    [return ecef_to_lat_lon_alt1(R)] when [delta] is NaN, or with the last
    [Sn] and [Cn]. *)
Inductive loop_exit : Type :=
| Fallback : loop_exit
| Break : F64.t -> F64.t -> loop_exit.

(** The body of [for i in range(max_iter)] at index [i], with [rest]
    further indices in the range. *)
Fixpoint lat_lon_alt1_rounds (rest i : nat) (Z P E S C : F64.t) : loop_exit :=
let A := F64.sqrt (S^2 + C^2) in
let Cn := P * A^3 - E * C^3 in
let Sn := Z * A^3 + E * S^3 in
let delta := F64.abs (Sn / Cn - S / C) * C / S in
if F64.isnan delta then Fallback
else if (F64.abs delta <? #1e-10) || (i =? max_iter - 1)%nat then Break Sn Cn
else
  match rest with
  | O => Break Sn Cn
  | Datatypes.S rest' => lat_lon_alt1_rounds rest' (i + 1)%nat Z P E Sn Cn
  end.

(** One invocation; [self] is the function itself, as the recursive call
    in the loop sees it.  The call passes [R] and no [deg], which then
    takes its default [True]. *)
Definition lat_lon_alt1_body (self : vec3 -> bool -> option vec3)
  (R : vec3) (deg : bool) : option vec3 :=
let a := #6378137.0 in
let b := #6356752.314245 in
let e := #0.08181919092890624 in
let E := e^2 in
let e1 := F64.sqrt (F64.one - e^2) in
let p := F64.sqrt ((at0 R)^2 + (at1 R)^2) in
let az := F64.abs (at2 R) in
let Z := e1 * az / a in
let P := p / a in
let S := F64.py_or Z F64.one in
let C := F64.py_or (e1 * P) F64.one in
match lat_lon_alt1_rounds (max_iter - 1) 0 Z P E S C with
| Fallback => self R true
| Break Sn Cn =>
  let theta := atan2 L (at1 R) (at0 R) in
  let Cc := e1 * Cn in
  let phi := F64.sign (at2 R) * atan2 L Sn Cc in
  let h := (p * Cc + az * Sn - b * F64.sqrt (Sn^2 + Cn^2))
           / F64.sqrt (Cc^2 + Sn^2) in
  if deg then Some (Vec3 (F64.degrees phi) (F64.degrees theta) h)
  else Some (Vec3 phi theta h)
end.

(** The function with a bound [depth] on the nesting of its calls; [None]
    when the bound is reached before a call returns. *)
Fixpoint ecef_to_lat_lon_alt1 (depth : nat) (R : vec3) (deg : bool)
  : option vec3 :=
match depth with
| O => None
| S depth' => lat_lon_alt1_body (ecef_to_lat_lon_alt1 depth') R deg
end.

(** *** [sat_in_enu(R_u, R_sat)] *)

(** A row of [C_ecef_to_enu * R.reshape((3, 1))]. *)
Definition dot3 (m0 m1 m2 : F64.t) (R : vec3) : F64.t :=
m0 * at0 R + m1 * at1 R + m2 * at2 R.

(** [numpy.linalg.norm] of a real vector: the root of the sum of squares. *)
Definition norm (v : vec3) : F64.t :=
F64.sqrt (at0 v * at0 v + at1 v * at1 v + at2 v * at2 v).

Definition sat_in_enu (R_u R_sat : vec3) : vec3 :=
let R := vec3_sub R_sat R_u in
let phi_theta_h := ecef_to_lat_lon_alt R_u false in
let sin_p := sin L (at0 phi_theta_h) in
let sin_t := sin L (at1 phi_theta_h) in
let cos_p := cos L (at0 phi_theta_h) in
let cos_t := cos L (at1 phi_theta_h) in
let X_enu :=
  Vec3 (dot3 (- sin_t) cos_t F64.zero R)
       (dot3 (- sin_p * cos_t) (- sin_p * sin_t) cos_p R)
       (dot3 (cos_p * cos_t) (cos_p * sin_t) sin_p R) in
let n := norm X_enu in
Vec3 (at0 X_enu / n) (at1 X_enu / n) (at2 X_enu / n).

End Program.

(** ** A reference instance of the mathematical library

    It gives the assumptions of [LibmSpec] a model and lets the program be
    evaluated on concrete inputs.  [pow] covers the three exponents the
    program uses ([2], [3] and [-0.5]); [atan2], [sin] and [cos] are
    computed from their power series after argument reduction. *)

Module RefLibm.

Local Open Scope f64_scope.

Definition ref_pow (x y : F64.t) : F64.t :=
if F64.eqb y F64.two then x * x
else if F64.eqb y F64.three then x * x * x
else if F64.eqb y (F64.lit (-0.5)) then F64.one / F64.sqrt x
else F64.nan.

(** [sum_k c_k * z^k] by Horner's rule. *)
Definition horner (coeffs : list F64.t) (z : F64.t) : F64.t :=
fold_right (fun c acc => c + z * acc) F64.zero coeffs.

Definition of_nat (n : nat) : F64.t :=
Nat.iter n (fun x => x + F64.one) F64.zero.

(** [1, -1/3, 1/5, ...]: the coefficients of [atan x / x] in [x^2]. *)
Fixpoint atan_coeffs (n k : nat) (s : F64.t) : list F64.t :=
match n with
| O => []
| S n' => s / of_nat (2 * k + 1) :: atan_coeffs n' (k + 1) (- s)
end.

Definition atan_halve (x : F64.t) : F64.t :=
x / (F64.one + F64.sqrt (F64.one + x * x)).

(** [atan x] for [|x| <= 1]: three halvings of the angle, then the series. *)
Definition atan_unit (x : F64.t) : F64.t :=
let y := atan_halve (atan_halve (atan_halve x)) in
F64.lit 8 * (y * horner (atan_coeffs 11 0 F64.one) (y * y)).

Definition half_pi : F64.t := Eval vm_compute in F64.lit 1.5707963267948966.

Definition is_neg (x : F64.t) : bool :=
match x with
| S754_zero s | S754_infinity s | S754_finite s _ _ => s
| S754_nan => false
end.

Definition is_inf (x : F64.t) : bool :=
match x with S754_infinity _ => true | _ => false end.

Definition with_sign_of (y v : F64.t) : F64.t :=
if is_neg y then - v else v.

Definition ref_atan (x : F64.t) : F64.t :=
if F64.one <? F64.abs x
then with_sign_of x (half_pi - atan_unit (F64.one / F64.abs x))
else atan_unit x.

Definition ref_atan2 (y x : F64.t) : F64.t :=
if F64.isnan y || F64.isnan x then F64.nan
else if is_inf y then
  with_sign_of y
    (if is_inf x
     then if is_neg x then F64.lit 3 * (half_pi / F64.two)
          else half_pi / F64.two
     else half_pi)
else if F64.eqb x F64.zero then
  if F64.eqb y F64.zero
  then if is_neg x then with_sign_of y F64.pi else y
  else with_sign_of y half_pi
else if is_neg x then with_sign_of y (F64.pi - ref_atan (F64.abs y / F64.abs x))
else ref_atan (y / x).

(** [1/(2k+d)!] with alternating signs: the coefficients of [cos x] for
    [d = 0] and of [sin x / x] for [d = 1], in [x^2]. *)
Fixpoint trig_coeffs (n k : nat) (c : F64.t) : list F64.t :=
match n with
| O => []
| S n' =>
  c :: trig_coeffs n' (k + 2) (- c / (of_nat (k + 1) * of_nat (k + 2)))
end.

(** Reduction to [[-pi, pi]]; the rounding of [x / (2 pi)] to an integer
    adds and subtracts [1.5 * 2^52]. *)
Definition reduce_2pi (x : F64.t) : F64.t :=
let two_pi := F64.two * F64.pi in
let magic := F64.lit 6755399441055744 in
let k := (x / two_pi + magic) - magic in
x - k * two_pi.

Definition ref_sin (x : F64.t) : F64.t :=
let r := reduce_2pi x in
r * horner (trig_coeffs 16 1 F64.one) (r * r).

Definition ref_cos (x : F64.t) : F64.t :=
let r := reduce_2pi x in
horner (trig_coeffs 16 0 F64.one) (r * r).

Definition ref_libm : Libm := MkLibm ref_pow ref_atan2 ref_sin ref_cos.

End RefLibm.

(** ** The steps of the inverse solver, named as the specification
    names them *)

Section Steps.

Variable L : Libm.

Local Open Scope f64_scope.

Definition wgs84_a : F64.t := F64.lit 6378137.0.
Definition wgs84_b : F64.t := F64.lit 6356752.314245.
Definition wgs84_e : F64.t := F64.lit 0.08181919092890624.
Definition wgs84_e1 : F64.t := F64.lit 0.99664718932816898.
Definition wgs84_c : F64.t := F64.lit 42697.67279723605.
Definition tolerance : F64.t := F64.lit 1e-9.

(** Step 1: [p = sqrt(X^2 + Y^2)]. *)
Definition cyl_radius (R : vec3) : F64.t :=
F64.sqrt (pow L (at0 R) F64.two + pow L (at1 R) F64.two).

(** Step 3: the seed [T0 = Z / (e' p) or 1]. *)
Definition seed (R : vec3) : F64.t :=
F64.py_or (at2 R / (wgs84_e1 * cyl_radius R)) F64.one.

(** Step 4: [C = (1+T^2)^(-1/2)], [S = C T],
    [T_new = (e' Z + c S^3) / (p - c C^3)]. *)
Definition update (p Z T : F64.t) : F64.t :=
let C := pow L (F64.one + pow L T F64.two) (F64.lit (-0.5)) in
let S := C * T in
(wgs84_e1 * Z + wgs84_c * pow L S F64.three)
/ (p - wgs84_c * pow L C F64.three).

(** The stopping test [|T_new - T| / T_new < 1e-9]. *)
Definition converged (T T_new : F64.t) : bool :=
F64.abs (T_new - T) / T_new <? tolerance.

(** The iterate after [k] updates of the seed. *)
Definition iterate (R : vec3) (k : nat) : F64.t :=
Nat.iter k (update (cyl_radius R) (at2 R)) (seed R).

(** The value of [T] when the loop is left. *)
Definition final_iterate (R : vec3) : F64.t :=
lat_lon_alt_rounds L 10 (cyl_radius R) (at2 R) (seed R).

(** Steps 2, 5 and 6: the altitude formulas (C11) and (C12) and the
    result built from an iterate [T]. *)
Definition altitude_C11 (p T : F64.t) : F64.t :=
F64.sqrt (F64.one + pow L T F64.two - pow L wgs84_e F64.two) / wgs84_e1
* (p - wgs84_a / F64.sqrt (F64.one + pow L T F64.two)).

Definition altitude_C12 (Z T : F64.t) : F64.t :=
F64.sqrt (F64.one + pow L T F64.two - pow L wgs84_e F64.two)
* (Z / T - wgs84_b / F64.sqrt (F64.one + pow L T F64.two)).

Definition angle_out (deg : bool) (x : F64.t) : F64.t :=
if deg then F64.degrees x else x.

Definition geodetic_of_iterate (R : vec3) (deg : bool) (T : F64.t) : vec3 :=
Vec3 (angle_out deg (atan2 L T wgs84_e1))
     (angle_out deg (atan2 L (at1 R) (at0 R)))
     (if cyl_radius R >? at2 R
      then altitude_C11 (cyl_radius R) T
      else altitude_C12 (at2 R) T).

End Steps.

(** ** The solver with the ellipsoid as a parameter *)

Record ellipsoid : Type := Ellipsoid {
  ell_a : F64.t;
  ell_b : F64.t;
  ell_e : F64.t;
  ell_e1 : F64.t;
  ell_c : F64.t
}.

(** The constants of [ecef_to_lat_lon_alt]. *)
Definition wgs84 : ellipsoid :=
Ellipsoid (F64.lit 6378137.0) (F64.lit 6356752.314245)
  (F64.lit 0.08181919092890624) (F64.lit 0.99664718932816898)
  (F64.lit 42697.67279723605).

(** [a = b = 6366255.89], [e = 0], [e' = 1], [c = 0]. *)
Definition sphere : ellipsoid :=
Ellipsoid (F64.lit 6366255.89) (F64.lit 6366255.89)
  (F64.lit 0.0) (F64.lit 1.0) (F64.lit 0.0).

Section Solver.

Variable L : Libm.
Variable k : ellipsoid.

Local Open Scope f64_scope.

(** The algorithm of [ecef_to_lat_lon_alt], its five constants read from
    [k]. *)
Fixpoint solver_rounds (n : nat) (p Z T : F64.t) : F64.t :=
match n with
| O => T
| S n' =>
  let C := pow L (F64.one + pow L T F64.two) (F64.lit (-0.5)) in
  let S := C * T in
  let T_new := (ell_e1 k * Z + ell_c k * pow L S F64.three)
               / (p - ell_c k * pow L C F64.three) in
  let delta := T_new - T in
  let T := T_new in
  if F64.abs delta / T <? F64.lit 1e-9 then T
  else solver_rounds n' p Z T
end.

Definition solver (R : vec3) (deg : bool) : vec3 :=
let p := F64.sqrt (pow L (at0 R) F64.two + pow L (at1 R) F64.two) in
let T := F64.py_or (at2 R / (ell_e1 k * p)) F64.one in
let T := solver_rounds 10 p (at2 R) T in
let theta := atan2 L (at1 R) (at0 R) in
let phi := atan2 L T (ell_e1 k) in
let T1 := F64.one + pow L T F64.two in
let h :=
  if p >? at2 R
  then F64.sqrt (T1 - pow L (ell_e k) F64.two) / ell_e1 k
       * (p - ell_a k / F64.sqrt T1)
  else F64.sqrt (T1 - pow L (ell_e k) F64.two)
       * (at2 R / T - ell_b k / F64.sqrt T1) in
if deg then Vec3 (F64.degrees phi) (F64.degrees theta) h
else Vec3 phi theta h.

End Solver.

(** ** The loop of [ecef_to_lat_lon_alt1] as a function of [R] *)

Section FallbackLoop.

Variable L : Libm.

Local Open Scope f64_scope.

(** The loop of one invocation on [R], from the constants and the zero
    approximation up to the way the loop is left.  It reads [R] only. *)
Definition lat_lon_alt1_loop (R : vec3) : loop_exit :=
let a := F64.lit 6378137.0 in
let e := F64.lit 0.08181919092890624 in
let E := pow L e F64.two in
let e1 := F64.sqrt (F64.one - pow L e F64.two) in
let p := F64.sqrt (pow L (at0 R) F64.two + pow L (at1 R) F64.two) in
let az := F64.abs (at2 R) in
let Z := e1 * az / a in
let P := p / a in
let S := F64.py_or Z F64.one in
let C := F64.py_or (e1 * P) F64.one in
lat_lon_alt1_rounds L (max_iter - 1) 0 Z P E S C.

(** [delta] is NaN at some round of the invocation on [R]. *)
Definition nan_fallback (R : vec3) : bool :=
match lat_lon_alt1_loop R with
| Fallback => true
| Break _ _ => false
end.

End FallbackLoop.

(** ** Inputs and predicates of the statements *)

Definition has_nan (v : vec3) : bool :=
F64.isnan (at0 v) || F64.isnan (at1 v) || F64.isnan (at2 v).

(** The geographic North Pole, on the ellipsoid: [X = Y = 0], [Z = b]. *)
Definition north_pole : vec3 :=
Vec3 F64.zero F64.zero (F64.lit 6356752.314245).

(** The centre of the Earth, the all-zero input. *)
Definition origin : vec3 := Vec3 F64.zero F64.zero F64.zero.

(** [lat] and [Z] are both positive or both negative. *)
Definition same_sign (lat Z : F64.t) : bool :=
(F64.ltb F64.zero Z && F64.ltb F64.zero lat)
|| (F64.ltb Z F64.zero && F64.ltb lat F64.zero).

(** A point 1000 m from the axis and 1000 m above the equatorial plane,
    deep inside the ellipsoid. *)
Definition inner_point : vec3 :=
Vec3 (F64.lit 1000) F64.zero (F64.lit 1000).

(** A satellite position, for the examples. *)
Definition sample_satellite : vec3 :=
Vec3 (F64.lit 15600000) (F64.lit 7540000) (F64.lit 20140000).

(** The tolerances of the round trip: [1e-7] degree, [1e-3] m. *)
Definition within (tol x y : F64.t) : bool :=
F64.ltb (F64.abs (F64.sub x y)) tol.

Definition round_trip_ok (L : Libm) (g : vec3) : bool :=
let r := ecef_to_lat_lon_alt L (lat_lon_alt_to_ecef_xyz L g) true in
within (F64.lit 1e-7) (at0 r) (at0 g)
&& within (F64.lit 1e-7) (at1 r) (at1 g)
&& within (F64.lit 1e-3) (at2 r) (at2 g).

Definition geodetic (lat lon alt : PrimFloat.float) : vec3 :=
Vec3 (F64.lit lat) (F64.lit lon) (F64.lit alt).

(** The geodetic points of the round trip: [|lat| < 89.9] degrees,
    [-180 < lon <= 180] degrees as the data model has it, and
    [-1000 <= alt <= 100000] m. *)
Definition in_domain (g : vec3) : bool :=
F64.ltb (F64.abs (at0 g)) (F64.lit 89.9)
&& F64.ltb (F64.lit (-180)) (at1 g)
&& SFleb (at1 g) (F64.lit 180)
&& SFleb (F64.lit (-1000)) (at2 g)
&& SFleb (at2 g) (F64.lit 100000).

(** The round trip as a statement about a mathematical library [L]; it
    is not proved here, for it rests on the accuracy of [L]. *)
Definition round_trip_claim (L : Libm) : Prop :=
forall g : vec3, in_domain g = true -> round_trip_ok L g = true.

(** ** Elevation and azimuth *)

(** [sat_elev(R_u, R_sat, deg=True)]; [arcsin] is numpy's, a further
    function of the mathematical library. *)
Definition sat_elev (L : Libm) (arcsin : F64.t -> F64.t)
  (R_u R_sat : vec3) (deg : bool) : F64.t :=
let elev := arcsin (at2 (sat_in_enu L R_u R_sat)) in
if deg then F64.degrees elev else elev.

(** [sat_az(R_u, R_sat, deg=True)]; its [atan2] is [math.atan2]. *)
Definition sat_az (L : Libm) (R_u R_sat : vec3) (deg : bool) : F64.t :=
let enu := sat_in_enu L R_u R_sat in
let az := atan2 L (at0 enu) (at1 enu) in
if deg then F64.degrees az else az.

(** A reference [arcsin], from the reference [atan2]. *)
Definition ref_arcsin (x : F64.t) : F64.t :=
RefLibm.ref_atan2 x (F64.sqrt (F64.sub F64.one (F64.mul x x))).

(** A zero of either sign, or NaN. *)
Definition zero_or_nan (x : F64.t) : bool :=
match x with
| S754_zero _ | S754_nan => true
| _ => false
end.

(** A point of the southern hemisphere, near Sydney. *)
Definition sydney : vec3 :=
Vec3 (F64.lit (-4646000)) (F64.lit 2553000) (F64.lit (-3534000)).

(** * Properties *)

Section StepLemmas.

Variable L : Libm.

Lemma ecef_to_lat_lon_alt_steps (R : vec3) (deg : bool) :
  ecef_to_lat_lon_alt L R deg
    = geodetic_of_iterate L R deg (final_iterate L R).
Proof.
  unfold ecef_to_lat_lon_alt, geodetic_of_iterate, final_iterate, seed,
    altitude_C11, altitude_C12, angle_out, cyl_radius,
    wgs84_a, wgs84_b, wgs84_e, wgs84_e1.
  destruct deg; reflexivity.
Qed.

Lemma lat_lon_alt_rounds_S (n : nat) (p Z T : F64.t) :
  lat_lon_alt_rounds L (S n) p Z T =
  if converged T (update L p Z T) then update L p Z T
  else lat_lon_alt_rounds L n p Z (update L p Z T).
Proof.
  unfold converged, update, tolerance, wgs84_e1, wgs84_c.
  reflexivity.
Qed.

End StepLemmas.

(** ** NaN in binary64 arithmetic *)

Section NaN.

Local Open Scope f64_scope.

Lemma add_nan_l (y : F64.t) : F64.nan + y = F64.nan.
Proof. reflexivity. Qed.

Lemma add_nan_r (x : F64.t) : x + F64.nan = F64.nan.
Proof. destruct x; reflexivity. Qed.

Lemma sub_nan_l (y : F64.t) : F64.nan - y = F64.nan.
Proof. reflexivity. Qed.

Lemma sub_nan_r (x : F64.t) : x - F64.nan = F64.nan.
Proof. destruct x; reflexivity. Qed.

Lemma mul_nan_l (y : F64.t) : F64.nan * y = F64.nan.
Proof. reflexivity. Qed.

Lemma mul_nan_r (x : F64.t) : x * F64.nan = F64.nan.
Proof. destruct x; reflexivity. Qed.

Lemma div_nan_l (y : F64.t) : F64.nan / y = F64.nan.
Proof. reflexivity. Qed.

Lemma div_nan_r (x : F64.t) : x / F64.nan = F64.nan.
Proof. destruct x; reflexivity. Qed.

Lemma ltb_nan_l (y : F64.t) : (F64.nan <? y) = false.
Proof. reflexivity. Qed.

Lemma isnan_eq (x : F64.t) : F64.isnan x = true -> x = F64.nan.
Proof. destruct x; simpl; intros H; try discriminate H; reflexivity. Qed.

End NaN.

Create Rewrite HintDb f64_nan.
#[local] Hint Rewrite add_nan_l add_nan_r sub_nan_l sub_nan_r
  mul_nan_l mul_nan_r div_nan_l div_nan_r ltb_nan_l : f64_nan.

(** ** The fixed-point loop *)

Section Loop.

Variable L : Libm.

(** The loop, started with [n] rounds left at an iterate [T] reached
    after [j] updates, leaves with an iterate [j + k], [1 <= k <= n]:
    the first one at which the test holds, or the last one. *)
Lemma lat_lon_alt_rounds_exit (R : vec3) (n j : nat) :
  exists k : nat,
    (1 <= k <= S n)%nat /\
    lat_lon_alt_rounds L (S n) (cyl_radius L R) (at2 R) (iterate L R j)
      = iterate L R (j + k) /\
    (forall i : nat, (1 <= i < k)%nat ->
       converged (iterate L R (j + i - 1)) (iterate L R (j + i)) = false) /\
    ((k < S n)%nat ->
       converged (iterate L R (j + k - 1)) (iterate L R (j + k)) = true).
Proof.
  revert j; induction n as [|n IH]; intros j.
  - exists 1%nat. rewrite lat_lon_alt_rounds_S.
    replace (j + 1)%nat with (S j) by lia.
    change (iterate L R (S j))
      with (update L (cyl_radius L R) (at2 R) (iterate L R j)).
    repeat split; try lia.
    destruct (converged _ _); reflexivity.
  - rewrite lat_lon_alt_rounds_S.
    change (update L (cyl_radius L R) (at2 R) (iterate L R j))
      with (iterate L R (S j)).
    destruct (converged (iterate L R j) (iterate L R (S j))) eqn:Hc.
    + exists 1%nat. replace (j + 1)%nat with (S j) by lia.
      repeat split; try lia.
      intros _. replace (S j - 1)%nat with j by lia. exact Hc.
    + destruct (IH (S j)) as (k & Hk & Hrun & Hbefore & Hstop).
      exists (S k).
      replace (j + S k)%nat with (S j + k)%nat by lia.
      repeat split; try lia.
      * exact Hrun.
      * intros i Hi. destruct (Nat.eq_dec i 1) as [->|Hne].
        -- replace (j + 1 - 1)%nat with j by lia.
           replace (j + 1)%nat with (S j) by lia. exact Hc.
        -- replace (j + i - 1)%nat with (S j + (i - 1) - 1)%nat by lia.
           replace (j + i)%nat with (S j + (i - 1))%nat by lia.
           apply Hbefore. lia.
      * intros Hlt. apply Hstop. lia.
Qed.

(** C4.  The fixed-point loop of [ecef_to_lat_lon_alt] performs [k] update
    rounds, [1 <= k <= 10], each one the update
    [T_new = (e' Z + c S^3) / (p - c C^3)] with [C = (1+T^2)^(-1/2)] and
    [S = C T]; the test [|T_new - T| / T_new < 1e-9] fails at every round
    before the [k]-th and holds at the [k]-th when [k < 10], so that the
    loop stops at the first round that meets the tolerance and runs all 10
    rounds when none does; in both cases the function returns the result
    built from the last iterate. *)
Theorem C4_fixed_point_loop (R : vec3) (deg : bool) :
  exists k : nat,
    (1 <= k <= 10)%nat /\
    final_iterate L R = iterate L R k /\
    (forall i : nat, (1 <= i < k)%nat ->
       converged (iterate L R (i - 1)) (iterate L R i) = false) /\
    ((k < 10)%nat -> converged (iterate L R (k - 1)) (iterate L R k) = true) /\
    ecef_to_lat_lon_alt L R deg = geodetic_of_iterate L R deg (iterate L R k).
Proof.
  destruct (lat_lon_alt_rounds_exit R 9 0) as (k & Hk & Hrun & Hbefore & Hstop).
  exists k.
  assert (Hfin : final_iterate L R = iterate L R k) by exact Hrun.
  split; [lia|]. split; [exact Hfin|]. split; [|split].
  - intros i Hi. exact (Hbefore i Hi).
  - intros Hlt. exact (Hstop Hlt).
  - rewrite ecef_to_lat_lon_alt_steps, Hfin. reflexivity.
Qed.

(** C5.  The altitude returned by [ecef_to_lat_lon_alt] is given by one of
    two formulas selected on [p > Z]: formula (C11),
    [sqrt(1+T^2-e^2)/e' * (p - a/sqrt(1+T^2))], when [p > Z], and formula
    (C12), [sqrt(1+T^2-e^2) * (Z/T - b/sqrt(1+T^2))], otherwise, with [T]
    the final iterate of the loop, whatever the [deg] flag. *)
Theorem C5_altitude_branch (R : vec3) (deg : bool) :
  at2 (ecef_to_lat_lon_alt L R deg) =
  if F64.gtb (cyl_radius L R) (at2 R)
  then altitude_C11 L (cyl_radius L R) (final_iterate L R)
  else altitude_C12 L (at2 R) (final_iterate L R).
Proof.
  rewrite ecef_to_lat_lon_alt_steps. reflexivity.
Qed.

End Loop.

(** ** NaN through the inverse solver *)

Lemma ref_libm_spec : LibmSpec RefLibm.ref_libm.
Proof. constructor; try reflexivity. Defined.

Section NaNRuns.

Variable L : Libm.
Hypothesis HL : LibmSpec L.

Local Open Scope f64_scope.

Lemma update_nan (p Z : F64.t) : update L p Z F64.nan = F64.nan.
Proof.
  unfold update.
  rewrite (pow_nan_2 L HL), add_nan_r, (pow_nan_mhalf L HL), mul_nan_l,
    (pow_nan_3 L HL), mul_nan_r, add_nan_r, div_nan_l.
  reflexivity.
Qed.

Lemma update_inf (p Z : F64.t) (s : bool) :
  update L p Z (S754_infinity s) = F64.nan.
Proof.
  unfold update.
  assert (Hsq : pow L (S754_infinity s) F64.two = F64.inf).
  { destruct s; [exact (pow_ninf_2 L HL) | exact (pow_inf_2 L HL)]. }
  rewrite Hsq.
  replace (F64.one + F64.inf) with F64.inf by reflexivity.
  rewrite (pow_inf_mhalf L HL).
  replace (F64.zero * S754_infinity s) with F64.nan by reflexivity.
  rewrite (pow_nan_3 L HL), mul_nan_r, add_nan_r, div_nan_l.
  reflexivity.
Qed.

Lemma converged_nan (T : F64.t) : converged T F64.nan = false.
Proof.
  unfold converged. rewrite sub_nan_l.
  replace (F64.abs F64.nan) with F64.nan by reflexivity.
  rewrite div_nan_l. apply ltb_nan_l.
Qed.

(** Once [T] is NaN every further round leaves it NaN and the test never
    holds. *)
Lemma lat_lon_alt_rounds_nan (n : nat) (p Z : F64.t) :
  lat_lon_alt_rounds L n p Z F64.nan = F64.nan.
Proof.
  induction n as [|n IH]; [reflexivity|].
  rewrite lat_lon_alt_rounds_S, update_nan, converged_nan. exact IH.
Qed.

Lemma lat_lon_alt_rounds_inf (n : nat) (p Z : F64.t) (s : bool) :
  lat_lon_alt_rounds L (S n) p Z (S754_infinity s) = F64.nan.
Proof.
  rewrite lat_lon_alt_rounds_S, update_inf, converged_nan.
  apply lat_lon_alt_rounds_nan.
Qed.

Lemma angle_out_nan (deg : bool) : angle_out deg F64.nan = F64.nan.
Proof. destruct deg; reflexivity. Qed.

Lemma altitude_C11_nan (p : F64.t) : altitude_C11 L p F64.nan = F64.nan.
Proof.
  unfold altitude_C11.
  rewrite (pow_nan_2 L HL), add_nan_r, sub_nan_l.
  replace (F64.sqrt F64.nan) with F64.nan by reflexivity.
  rewrite div_nan_l, mul_nan_l. reflexivity.
Qed.

Lemma altitude_C12_nan (Z : F64.t) : altitude_C12 L Z F64.nan = F64.nan.
Proof.
  unfold altitude_C12.
  rewrite (pow_nan_2 L HL), add_nan_r, sub_nan_l.
  replace (F64.sqrt F64.nan) with F64.nan by reflexivity.
  rewrite mul_nan_l. reflexivity.
Qed.

(** A NaN iterate gives a NaN latitude and a NaN altitude. *)
Lemma geodetic_of_nan (R : vec3) (deg : bool) :
  at0 (geodetic_of_iterate L R deg F64.nan) = F64.nan /\
  at2 (geodetic_of_iterate L R deg F64.nan) = F64.nan.
Proof.
  unfold geodetic_of_iterate; cbn [at0 at2]. split.
  - rewrite (atan2_nan L HL). apply angle_out_nan.
  - rewrite altitude_C11_nan, altitude_C12_nan.
    destruct (F64.gtb _ _); reflexivity.
Qed.

(** On the polar axis the cylindrical radius is zero. *)
Lemma cyl_radius_axis (Z : F64.t) :
  cyl_radius L (Vec3 F64.zero F64.zero Z) = F64.zero.
Proof.
  unfold cyl_radius; cbn [at0 at1]. rewrite (pow_zero_2 L HL). reflexivity.
Qed.

(** The seed on the polar axis: the quotient [Z / 0.0], which is never
    [0.0], so that [or 1.] does not replace it. *)
Lemma seed_axis (Z : F64.t) :
  seed L (Vec3 F64.zero F64.zero Z) = Z / F64.zero.
Proof.
  unfold seed. rewrite cyl_radius_axis. cbn [at2].
  replace (wgs84_e1 * F64.zero) with F64.zero by (vm_compute; reflexivity).
  destruct Z as [[]|[]| |[] m e]; reflexivity.
Qed.

Lemma final_iterate_axis (Z : F64.t) :
  final_iterate L (Vec3 F64.zero F64.zero Z) = F64.nan.
Proof.
  unfold final_iterate. rewrite seed_axis.
  destruct Z as [s|s| |s m e].
  - apply lat_lon_alt_rounds_nan.
  - apply lat_lon_alt_rounds_inf.
  - apply lat_lon_alt_rounds_nan.
  - apply lat_lon_alt_rounds_inf.
Qed.

Lemma final_iterate_nan_seed (R : vec3) :
  F64.isnan (seed L R) = true -> final_iterate L R = F64.nan.
Proof.
  intros H. unfold final_iterate. rewrite (isnan_eq _ H).
  apply lat_lon_alt_rounds_nan.
Qed.

End NaNRuns.

(** ** The polar axis and the all-zero input *)

Section PolarAxis.

Local Open Scope f64_scope.

(** C2.  On the polar axis, [X = Y = 0] with [Z] neither zero nor NaN, the
    cylindrical radius [p] is [0.0] and the seed of [ecef_to_lat_lon_alt]
    is the quotient [Z / 0.0], an infinity with the sign of [Z]: the
    [or 1.] of the source replaces a quotient equal to zero, not a zero
    divisor.  The first round turns the infinite seed into NaN and the
    latitude returned is NaN, for the North Pole [Z = b] as for every
    other point of the axis. *)
Theorem C2_polar_axis_seed_is_infinite (L : Libm) (HL : LibmSpec L)
  (Z : F64.t) (deg : bool) :
  F64.isnan Z = false ->
  F64.eqb Z F64.zero = false ->
  cyl_radius L (Vec3 F64.zero F64.zero Z) = F64.zero /\
  seed L (Vec3 F64.zero F64.zero Z)
    = (if Z <? F64.zero then - F64.inf else F64.inf) /\
  at0 (ecef_to_lat_lon_alt L (Vec3 F64.zero F64.zero Z) deg) = F64.nan.
Proof.
  intros Hnan Hzero. split; [apply cyl_radius_axis; exact HL|]. split.
  - rewrite seed_axis by exact HL.
    destruct Z as [[]|[]| |[] m e]; try discriminate; reflexivity.
  - rewrite ecef_to_lat_lon_alt_steps, final_iterate_axis by exact HL.
    apply geodetic_of_nan; exact HL.
Qed.

Lemma C2_polar_axis_seed_is_infinite_witness :
  F64.isnan (at2 north_pole) = false /\
  F64.eqb (at2 north_pole) F64.zero = false /\
  seed RefLibm.ref_libm north_pole = F64.inf /\
  at0 (ecef_to_lat_lon_alt RefLibm.ref_libm north_pole true) = F64.nan.
Proof.
  split; [reflexivity|]. split; [reflexivity|].
  exact (proj2 (C2_polar_axis_seed_is_infinite RefLibm.ref_libm ref_libm_spec
                  (F64.lit 6356752.314245) true eq_refl eq_refl)).
Defined.

(** C3, counterexample.  On the all-zero input [ecef_to_lat_lon_alt]
    returns, without any error, the array [(NaN, 0.0, NaN)]: the seed is
    [0.0 / 0.0], every operation on the way is one on NaN, zero or
    infinity. *)
Lemma C3_origin_returns_nan :
  ecef_to_lat_lon_alt RefLibm.ref_libm origin true
    = Vec3 F64.nan F64.zero F64.nan /\
  has_nan (ecef_to_lat_lon_alt RefLibm.ref_libm origin true) = true.
Proof. split; vm_compute; reflexivity. Qed.

(** C3, amended.  [ecef_to_lat_lon_alt] has no NaN detection, no fallback
    and no explicit failure: whenever its seed [T0] is NaN, as on the
    all-zero input, the NaN goes through every round of the loop and the
    function returns a NaN latitude and a NaN altitude to its caller. *)
Theorem C3_nan_seed_is_returned (L : Libm) (HL : LibmSpec L)
  (R : vec3) (deg : bool) :
  F64.isnan (seed L R) = true ->
  at0 (ecef_to_lat_lon_alt L R deg) = F64.nan /\
  at2 (ecef_to_lat_lon_alt L R deg) = F64.nan /\
  has_nan (ecef_to_lat_lon_alt L R deg) = true.
Proof.
  intros Hseed.
  rewrite ecef_to_lat_lon_alt_steps, (final_iterate_nan_seed L HL R Hseed).
  destruct (geodetic_of_nan L HL R deg) as [Hlat Halt].
  split; [exact Hlat|]. split; [exact Halt|].
  unfold has_nan. rewrite Hlat. reflexivity.
Qed.

Lemma C3_nan_seed_is_returned_witness :
  F64.isnan (seed RefLibm.ref_libm origin) = true /\
  at0 (ecef_to_lat_lon_alt RefLibm.ref_libm origin false) = F64.nan /\
  at2 (ecef_to_lat_lon_alt RefLibm.ref_libm origin false) = F64.nan /\
  has_nan (ecef_to_lat_lon_alt RefLibm.ref_libm origin false) = true.
Proof.
  split; [vm_compute; reflexivity|].
  apply (C3_nan_seed_is_returned RefLibm.ref_libm ref_libm_spec origin false).
  vm_compute; reflexivity.
Defined.

(** C6.  For an observer on the polar axis, the North Pole among them,
    [sat_in_enu] returns the vector [(NaN, NaN, NaN)] whatever the target:
    the NaN latitude of [ecef_to_lat_lon_alt] enters the rotation matrix,
    the norm is NaN, and no component is a number, let alone a unit
    vector. *)
Theorem C6_polar_observer_enu_is_nan (L : Libm) (HL : LibmSpec L)
  (Z : F64.t) (R_sat : vec3) :
  sat_in_enu L (Vec3 F64.zero F64.zero Z) R_sat
    = Vec3 F64.nan F64.nan F64.nan.
Proof.
  unfold sat_in_enu.
  rewrite ecef_to_lat_lon_alt_steps, (final_iterate_axis L HL).
  destruct (geodetic_of_nan L HL (Vec3 F64.zero F64.zero Z) false) as [Hlat _].
  rewrite Hlat, (sin_nan L HL), (cos_nan L HL).
  unfold norm, dot3; cbn [at0 at1 at2].
  replace (- F64.nan) with F64.nan by reflexivity.
  autorewrite with f64_nan.
  replace (F64.sqrt F64.nan) with F64.nan by reflexivity.
  autorewrite with f64_nan. reflexivity.
Qed.

Lemma C6_polar_observer_enu_is_nan_witness :
  LibmSpec RefLibm.ref_libm /\
  sat_in_enu RefLibm.ref_libm north_pole sample_satellite
    = Vec3 F64.nan F64.nan F64.nan.
Proof.
  split; [exact ref_libm_spec|].
  exact (C6_polar_observer_enu_is_nan RefLibm.ref_libm ref_libm_spec
           (F64.lit 6356752.314245) sample_satellite).
Defined.

(** C7.  On the polar axis with [Z > 0] the latitude returned by
    [ecef_to_lat_lon_alt] does not have the sign of [Z]: it is NaN. *)
Theorem C7_polar_axis_sign_lost (L : Libm) (HL : LibmSpec L)
  (Z : F64.t) (deg : bool) :
  (F64.zero <? Z) = true ->
  at0 (ecef_to_lat_lon_alt L (Vec3 F64.zero F64.zero Z) deg) = F64.nan /\
  same_sign (at0 (ecef_to_lat_lon_alt L (Vec3 F64.zero F64.zero Z) deg)) Z
    = false.
Proof.
  intros Hpos.
  assert (Hlat : at0 (ecef_to_lat_lon_alt L (Vec3 F64.zero F64.zero Z) deg)
                   = F64.nan).
  { rewrite ecef_to_lat_lon_alt_steps, (final_iterate_axis L HL).
    apply geodetic_of_nan; exact HL. }
  split; [exact Hlat|].
  rewrite Hlat. unfold same_sign.
  replace (F64.zero <? F64.nan) with false by reflexivity.
  rewrite ltb_nan_l, !andb_false_r. reflexivity.
Qed.

Lemma C7_polar_axis_sign_lost_witness :
  (F64.zero <? at2 north_pole) = true /\
  at0 (ecef_to_lat_lon_alt RefLibm.ref_libm north_pole true) = F64.nan /\
  same_sign (at0 (ecef_to_lat_lon_alt RefLibm.ref_libm north_pole true))
    (at2 north_pole) = false.
Proof.
  split; [reflexivity|].
  exact (C7_polar_axis_sign_lost RefLibm.ref_libm ref_libm_spec
           (F64.lit 6356752.314245) true eq_refl).
Defined.

(** There the first update has a negative denominator [p - c C^3]: [T]
    becomes negative, the test [|delta| / T < 1e-9] holds at once, and
    [ecef_to_lat_lon_alt] returns a southern latitude for a northern
    [Z]. *)
Example inner_point_hemisphere_flipped :
  (F64.zero <? at2 inner_point) = true /\
  (iterate RefLibm.ref_libm inner_point 1 <? F64.zero) = true /\
  final_iterate RefLibm.ref_libm inner_point
    = iterate RefLibm.ref_libm inner_point 1 /\
  (at0 (ecef_to_lat_lon_alt RefLibm.ref_libm inner_point true) <? F64.zero)
    = true.
Proof. repeat split; vm_compute; reflexivity. Qed.

End PolarAxis.

(** ** The spherical solver *)

Section Spherical.

Variable L : Libm.

Lemma lat_lon_alt_rounds_solver (n : nat) :
  forall p Z T : F64.t,
    lat_lon_alt_rounds L n p Z T = solver_rounds L wgs84 n p Z T.
Proof.
  induction n as [|n IH]; intros p Z T; [reflexivity|].
  cbn [lat_lon_alt_rounds solver_rounds wgs84 ell_e1 ell_c].
  rewrite IH. reflexivity.
Qed.

Lemma spherical_rounds_solver (n : nat) :
  forall p Z T : F64.t,
    spherical_rounds L n p Z T = solver_rounds L sphere n p Z T.
Proof.
  induction n as [|n IH]; intros p Z T; [reflexivity|].
  cbn [spherical_rounds solver_rounds sphere ell_e1 ell_c].
  rewrite IH. reflexivity.
Qed.

(** C8.  For every input and either value of [deg], [ecef_to_spherical]
    returns what the algorithm of [ecef_to_lat_lon_alt] returns once its
    constants are replaced by [a = b = 6366255.89], [e = 0], [e' = 1],
    [c = 0]; [ecef_to_lat_lon_alt] itself is that algorithm at the WGS84
    constants. *)
Theorem C8_spherical_is_solver_on_sphere (R : vec3) (deg : bool) :
  ecef_to_lat_lon_alt L R deg = solver L wgs84 R deg /\
  ecef_to_spherical L R deg = solver L sphere R deg.
Proof.
  split.
  - unfold ecef_to_lat_lon_alt, solver.
    cbn [wgs84 ell_a ell_b ell_e ell_e1 ell_c].
    rewrite lat_lon_alt_rounds_solver. reflexivity.
  - unfold ecef_to_spherical, solver.
    cbn [sphere ell_a ell_b ell_e ell_e1 ell_c].
    rewrite spherical_rounds_solver. reflexivity.
Qed.

End Spherical.

(** ** The NaN fallback of [ecef_to_lat_lon_alt1] *)

Section Fallback.

Variable L : Libm.

Local Open Scope f64_scope.

Lemma lat_lon_alt1_body_fallback (self : vec3 -> bool -> option vec3)
  (R : vec3) (deg : bool) :
  nan_fallback L R = true -> lat_lon_alt1_body L self R deg = self R true.
Proof.
  unfold nan_fallback, lat_lon_alt1_loop, lat_lon_alt1_body. cbv zeta.
  destruct (lat_lon_alt1_rounds L _ _ _ _ _ _ _) as [|Sn Cn].
  - reflexivity.
  - discriminate.
Qed.

(** Without a NaN [delta] the invocation returns by itself. *)
Lemma lat_lon_alt1_body_returns (self : vec3 -> bool -> option vec3)
  (R : vec3) (deg : bool) :
  nan_fallback L R = false ->
  exists out : vec3, lat_lon_alt1_body L self R deg = Some out.
Proof.
  unfold nan_fallback, lat_lon_alt1_loop, lat_lon_alt1_body. cbv zeta.
  destruct (lat_lon_alt1_rounds L _ _ _ _ _ _ _) as [|Sn Cn].
  - discriminate.
  - intros _. destruct deg; eexists; reflexivity.
Qed.

(** C9.  When [delta] is NaN in the invocation of [ecef_to_lat_lon_alt1]
    on [R], the invocation is replaced by one on the same [R]; nothing
    else is read, so that [delta] is NaN again in every nested
    invocation, and no bound on the nesting of the calls lets the call
    return. *)
Theorem C9_nan_fallback_never_returns (R : vec3) :
  nan_fallback L R = true ->
  (forall (depth : nat) (deg : bool),
     ecef_to_lat_lon_alt1 L (S depth) R deg
       = ecef_to_lat_lon_alt1 L depth R true) /\
  (forall (depth : nat) (deg : bool),
     ecef_to_lat_lon_alt1 L depth R deg = None).
Proof.
  intros Hnan.
  assert (Hstep : forall depth deg,
             ecef_to_lat_lon_alt1 L (S depth) R deg
               = ecef_to_lat_lon_alt1 L depth R true).
  { intros depth deg.
    change (ecef_to_lat_lon_alt1 L (S depth) R deg)
      with (lat_lon_alt1_body L (ecef_to_lat_lon_alt1 L depth) R deg).
    apply lat_lon_alt1_body_fallback. exact Hnan. }
  split; [exact Hstep|].
  induction depth as [|depth IH]; intros deg.
  - reflexivity.
  - rewrite Hstep. apply IH.
Qed.

End Fallback.

Lemma C9_nan_fallback_never_returns_witness :
  nan_fallback RefLibm.ref_libm inner_point = true /\
  ecef_to_lat_lon_alt1 RefLibm.ref_libm 1000 inner_point false = None.
Proof.
  split; [vm_compute; reflexivity|].
  apply (C9_nan_fallback_never_returns RefLibm.ref_libm inner_point).
  vm_compute; reflexivity.
Defined.

(** An input far outside every orbit: [X^2] overflows, [p] is infinite
    and [delta] is NaN at the first round. *)
Example nan_fallback_overflow :
  nan_fallback RefLibm.ref_libm (Vec3 (F64.lit 1e200) F64.zero F64.zero) = true.
Proof. vm_compute; reflexivity. Qed.

(** At the North Pole [ecef_to_lat_lon_alt1] returns at the first
    invocation: latitude 90 degrees, or pi/2 when radians are asked for. *)
Example lat_lon_alt1_north_pole :
  nan_fallback RefLibm.ref_libm north_pole = false /\
  ecef_to_lat_lon_alt1 RefLibm.ref_libm 1 north_pole true
    = Some (Vec3 (F64.lit 90) F64.zero F64.zero) /\
  ecef_to_lat_lon_alt1 RefLibm.ref_libm 1 north_pole false
    = Some (Vec3 RefLibm.half_pi F64.zero F64.zero).
Proof. repeat split; vm_compute; reflexivity. Qed.

(** ** The round trip on sample points

    With the reference library the round trip stays within the tolerances
    at these points, all of them in the domain; [round_trip_claim], the
    bound for all points, is left open. *)

Example round_trip_samples :
  forallb (fun g => in_domain g && round_trip_ok RefLibm.ref_libm g)
    [ geodetic 45 30 1000; geodetic (-45) 30 100000;
      geodetic 0 30 100000; geodetic 89.89 10 (-1000);
      geodetic (-89.89) 10 100000; geodetic 60 (-179.9) 0;
      geodetic (-30) 180 100000 ] = true.
Proof. vm_compute; reflexivity. Qed.

(** ** Signs through rounding *)

Section RoundingSign.

Local Open Scope Z_scope.

Lemma shr_1_nonneg (mrs : shr_record) :
  0 <= shr_m mrs -> 0 <= shr_m (shr_1 mrs).
Proof.
  destruct mrs as [m r s]. destruct m as [|q|q]; simpl; intros H.
  - lia.
  - destruct q; simpl; lia.
  - lia.
Qed.

Lemma iter_pos_shr_1_nonneg (n : positive) :
  forall mrs : shr_record,
    0 <= shr_m mrs -> 0 <= shr_m (iter_pos shr_1 n mrs).
Proof.
  induction n as [n IH|n IH|]; intros mrs H; simpl.
  - apply IH, IH, shr_1_nonneg, H.
  - apply IH, IH, H.
  - apply shr_1_nonneg, H.
Qed.

Lemma shr_fexp_nonneg (m e : Z) (l : location) :
  0 <= m -> 0 <= shr_m (fst (shr_fexp prec emax m e l)).
Proof.
  intros H. unfold shr_fexp, shr.
  assert (H0 : 0 <= shr_m (shr_record_of_loc m l)).
  { destruct l as [|[]]; exact H. }
  destruct (fexp prec emax (Zdigits2 m + e) - e) as [|q|q]; simpl fst.
  - exact H0.
  - apply iter_pos_shr_1_nonneg, H0.
  - exact H0.
Qed.

Lemma round_nearest_even_nonneg (m : Z) (l : location) :
  0 <= m -> 0 <= round_nearest_even m l.
Proof.
  intros H. destruct l as [|[]]; simpl; try lia.
  destruct (Z.even m); lia.
Qed.

(** Rounding a non-negative mantissa under the sign [sx] gives a zero, a
    finite number or an infinity of sign [sx]. *)
Lemma binary_round_aux_sign (sx : bool) (mx ex : Z) (lx : location) :
  0 <= mx ->
  match binary_round_aux prec emax sx mx ex lx with
  | S754_zero s | S754_infinity s | S754_finite s _ _ => s = sx
  | S754_nan => False
  end.
Proof.
  intros H. unfold binary_round_aux.
  pose proof (shr_fexp_nonneg mx ex lx H) as H1.
  destruct (shr_fexp prec emax mx ex lx) as [mrs' e'].
  simpl fst in H1.
  pose proof (shr_fexp_nonneg
                (round_nearest_even (shr_m mrs') (loc_of_shr_record mrs'))
                e' loc_Exact
                (round_nearest_even_nonneg _ _ H1)) as H2.
  destruct (shr_fexp prec emax
              (round_nearest_even (shr_m mrs') (loc_of_shr_record mrs'))
              e' loc_Exact) as [mrs'' e''].
  simpl fst in H2.
  destruct (shr_m mrs'') as [|q|q].
  - reflexivity.
  - destruct (e'' <=? emax - prec); reflexivity.
  - lia.
Qed.

Lemma SFdiv_core_binary_nonneg (m1 m2 : positive) (e1 e2 : Z) :
  0 <= fst (fst (SFdiv_core_binary prec emax (Zpos m1) e1 (Zpos m2) e2)).
Proof.
  unfold SFdiv_core_binary.
  set (s := e1 - e2 - _).
  set (m' := match s with
             | Zpos _ => Z.shiftl (Zpos m1) s
             | Z0 => Zpos m1
             | Zneg _ => Z0
             end).
  assert (Hm : 0 <= m').
  { subst m'. destruct s; try lia. apply Z.shiftl_nonneg. lia. }
  pose proof (Z.div_pos m' (Zpos m2) Hm ltac:(lia)) as Hq.
  unfold Z.div in Hq.
  destruct (Z.div_eucl m' (Zpos m2)) as [q r]. exact Hq.
Qed.

End RoundingSign.

(** ** A negative iterate ends the loop *)

Section NegativeIterate.

Local Open Scope f64_scope.

(** A quotient that is a zero, a finite number or an infinity of negative
    sign is below the tolerance. *)
Lemma negative_below_tolerance (q : F64.t) :
  match q with
  | S754_zero s | S754_infinity s | S754_finite s _ _ => s = true
  | S754_nan => False
  end ->
  (q <? tolerance) = true.
Proof.
  destruct q as [s|s| |s m e]; intros H; try contradiction; subst s;
    vm_compute; reflexivity.
Qed.

(** The test [abs(delta) / T < 1e-9] divides by the signed new iterate:
    it holds whenever that iterate is negative and finite and [delta] is
    a number, however large [delta] is. *)
Lemma converged_negative (T T_new : F64.t) :
  (T_new <? F64.zero) = true ->
  (- F64.inf <? T_new) = true ->
  F64.isnan (T_new - T) = false ->
  converged T T_new = true.
Proof.
  intros Hneg Hfin Hnan. unfold converged.
  destruct T_new as [s|s| |s m e]; try discriminate.
  - destruct s; discriminate.
  - destruct s; [|discriminate].
    destruct (S754_finite true m e - T) as [sd|sd| |sd md ed];
      try discriminate.
    + apply negative_below_tolerance. reflexivity.
    + apply negative_below_tolerance. reflexivity.
    + apply negative_below_tolerance.
      change (F64.abs (S754_finite sd md ed)) with (S754_finite false md ed).
      unfold F64.div, SFdiv.
      pose proof (SFdiv_core_binary_nonneg md m ed e) as Hq.
      destruct (SFdiv_core_binary prec emax (Zpos md) ed (Zpos m) e)
        as [[mz ez] lz].
      simpl fst in Hq.
      exact (binary_round_aux_sign (xorb false true) mz ez lz Hq).
Qed.

(** X1.  At any round of the loop of [ecef_to_lat_lon_alt], an update
    that is negative and finite, with a difference to the previous
    iterate that is not NaN, ends the loop at once with that update as its
    result: no later round refines a negative iterate. *)
Theorem negative_update_ends_loop (L : Libm) (n : nat) (p Z T : F64.t) :
  (update L p Z T <? F64.zero) = true ->
  (- F64.inf <? update L p Z T) = true ->
  F64.isnan (update L p Z T - T) = false ->
  lat_lon_alt_rounds L (S n) p Z T = update L p Z T.
Proof.
  intros Hneg Hfin Hnan.
  rewrite lat_lon_alt_rounds_S, (converged_negative _ _ Hneg Hfin Hnan).
  reflexivity.
Qed.

Lemma negative_update_ends_loop_witness :
  (iterate RefLibm.ref_libm sydney 1 <? F64.zero) = true /\
  (- F64.inf <? iterate RefLibm.ref_libm sydney 1) = true /\
  final_iterate RefLibm.ref_libm sydney = iterate RefLibm.ref_libm sydney 1.
Proof.
  split; [vm_compute; reflexivity|]. split; [vm_compute; reflexivity|].
  apply (negative_update_ends_loop RefLibm.ref_libm 9
           (cyl_radius RefLibm.ref_libm sydney) (at2 sydney)
           (seed RefLibm.ref_libm sydney));
    vm_compute; reflexivity.
Defined.

End NegativeIterate.

(** ** NaN coordinates *)

Section NaNInput.

Variable L : Libm.
Hypothesis HL : LibmSpec L.

Local Open Scope f64_scope.

Lemma sqrt_nan : F64.sqrt F64.nan = F64.nan.
Proof. reflexivity. Qed.

Lemma py_or_nan (y : F64.t) : F64.py_or F64.nan y = F64.nan.
Proof. reflexivity. Qed.

(** A NaN among [X] and [Y] makes the cylindrical radius NaN. *)
Lemma cyl_radius_nan (R : vec3) :
  F64.isnan (at0 R) || F64.isnan (at1 R) = true ->
  cyl_radius L R = F64.nan.
Proof.
  intros H. unfold cyl_radius.
  apply orb_true_iff in H. destruct H as [H|H]; rewrite (isnan_eq _ H).
  - rewrite (pow_nan_2 L HL), add_nan_l. apply sqrt_nan.
  - rewrite (pow_nan_2 L HL), add_nan_r. apply sqrt_nan.
Qed.

Lemma seed_nan_input (R : vec3) :
  has_nan R = true -> seed L R = F64.nan.
Proof.
  unfold has_nan. intros H. unfold seed.
  apply orb_true_iff in H. destruct H as [H|H].
  - rewrite (cyl_radius_nan R H), mul_nan_r, div_nan_r. apply py_or_nan.
  - rewrite (isnan_eq _ H), div_nan_l. apply py_or_nan.
Qed.

End NaNInput.

(** X2.  A NaN in any coordinate of the input of [ecef_to_lat_lon_alt]
    reaches the result: the latitude and the altitude returned are NaN,
    for both values of [deg]. *)
Theorem nan_coordinate_gives_nan (L : Libm) (HL : LibmSpec L)
  (R : vec3) (deg : bool) :
  has_nan R = true ->
  at0 (ecef_to_lat_lon_alt L R deg) = F64.nan /\
  at2 (ecef_to_lat_lon_alt L R deg) = F64.nan.
Proof.
  intros H.
  assert (Hseed : F64.isnan (seed L R) = true).
  { rewrite (seed_nan_input L HL R H). reflexivity. }
  rewrite ecef_to_lat_lon_alt_steps, (final_iterate_nan_seed L HL R Hseed).
  apply geodetic_of_nan. exact HL.
Qed.

Lemma nan_coordinate_gives_nan_witness :
  has_nan (Vec3 (F64.lit 6378137.0) F64.nan F64.zero) = true /\
  at0 (ecef_to_lat_lon_alt RefLibm.ref_libm
         (Vec3 (F64.lit 6378137.0) F64.nan F64.zero) false) = F64.nan /\
  at2 (ecef_to_lat_lon_alt RefLibm.ref_libm
         (Vec3 (F64.lit 6378137.0) F64.nan F64.zero) false) = F64.nan.
Proof.
  split; [reflexivity|].
  exact (nan_coordinate_gives_nan RefLibm.ref_libm ref_libm_spec
           (Vec3 (F64.lit 6378137.0) F64.nan F64.zero) false eq_refl).
Defined.

(** ** The polar axis in [ecef_to_spherical] *)

Section SolverNaN.

Variable L : Libm.
Hypothesis HL : LibmSpec L.
Variable k : ellipsoid.

Local Open Scope f64_scope.

Ltac nan_steps :=
  repeat first
    [ rewrite (pow_nan_2 L HL)
    | rewrite (pow_nan_3 L HL)
    | rewrite (pow_nan_mhalf L HL)
    | rewrite (atan2_nan L HL)
    | progress autorewrite with f64_nan
    | progress change (F64.abs F64.nan) with F64.nan
    | progress change (F64.sqrt F64.nan) with F64.nan ].

Lemma solver_rounds_nan (n : nat) (p Z : F64.t) :
  solver_rounds L k n p Z F64.nan = F64.nan.
Proof.
  induction n as [|n IH]; [reflexivity|].
  cbn [solver_rounds]. nan_steps. exact IH.
Qed.

Lemma solver_rounds_inf (n : nat) (p Z : F64.t) (s : bool) :
  solver_rounds L k (S n) p Z (S754_infinity s) = F64.nan.
Proof.
  cbn [solver_rounds].
  assert (Hsq : pow L (S754_infinity s) F64.two = F64.inf).
  { destruct s; [exact (pow_ninf_2 L HL) | exact (pow_inf_2 L HL)]. }
  rewrite Hsq.
  replace (F64.one + F64.inf) with F64.inf by reflexivity.
  rewrite (pow_inf_mhalf L HL).
  replace (F64.zero * S754_infinity s) with F64.nan by reflexivity.
  nan_steps. apply solver_rounds_nan.
Qed.

(** The quotient [Z / 0.0] is NaN or an infinity, and [or 1.] keeps it. *)
Lemma solver_rounds_div_zero (n : nat) (p Z : F64.t) :
  solver_rounds L k (S n) p Z (F64.py_or (Z / F64.zero) F64.one) = F64.nan.
Proof.
  destruct Z as [[]|[]| |[] m e];
    first [ apply solver_rounds_nan | apply solver_rounds_inf ].
Qed.

End SolverNaN.

(** X3.  [ecef_to_spherical] has the seed of [ecef_to_lat_lon_alt]: for
    every input on the polar axis, [X = Y = 0], whatever [Z], it returns a
    NaN latitude and a NaN altitude. *)
Theorem spherical_polar_axis_is_nan (L : Libm) (HL : LibmSpec L)
  (Z : F64.t) (deg : bool) :
  at0 (ecef_to_spherical L (Vec3 F64.zero F64.zero Z) deg) = F64.nan /\
  at2 (ecef_to_spherical L (Vec3 F64.zero F64.zero Z) deg) = F64.nan.
Proof.
  unfold ecef_to_spherical. cbv zeta. cbn [at0 at1 at2].
  rewrite spherical_rounds_solver, (pow_zero_2 L HL).
  replace (F64.sqrt (F64.add F64.zero F64.zero)) with F64.zero by reflexivity.
  replace (F64.mul (F64.lit 1.0) F64.zero) with F64.zero
    by (vm_compute; reflexivity).
  rewrite (solver_rounds_div_zero L HL).
  rewrite (pow_nan_2 L HL), (atan2_nan L HL).
  autorewrite with f64_nan.
  destruct (F64.gtb F64.zero Z); destruct deg; split; reflexivity.
Qed.

Lemma spherical_polar_axis_is_nan_witness :
  LibmSpec RefLibm.ref_libm /\
  at0 (ecef_to_spherical RefLibm.ref_libm
         (Vec3 F64.zero F64.zero (F64.lit 6366255.89)) true) = F64.nan /\
  at2 (ecef_to_spherical RefLibm.ref_libm
         (Vec3 F64.zero F64.zero (F64.lit 6366255.89)) true) = F64.nan.
Proof.
  split; [exact ref_libm_spec|].
  exact (spherical_polar_axis_is_nan RefLibm.ref_libm ref_libm_spec
           (F64.lit 6366255.89) true).
Defined.

(** ** Coincident observer and target *)

Section Coincident.

Local Open Scope f64_scope.

Lemma sub_diag_zero_or_nan (x : F64.t) : zero_or_nan (x - x) = true.
Proof.
  destruct x as [[]|[]| |s m e]; try reflexivity.
  unfold F64.sub, SFsub. rewrite Z.sub_diag. reflexivity.
Qed.

Lemma mul_zero_or_nan (x y : F64.t) :
  zero_or_nan y = true -> zero_or_nan (x * y) = true.
Proof.
  destruct y as [sy|sy| |sy my ey]; try discriminate; intros _;
    destruct x; reflexivity.
Qed.

Lemma add_zero_or_nan (x y : F64.t) :
  zero_or_nan x = true -> zero_or_nan y = true -> zero_or_nan (x + y) = true.
Proof.
  destruct x as [[]|sx| |sx mx ex]; try discriminate; intros _;
    destruct y as [[]|sy| |sy my ey]; try discriminate; reflexivity.
Qed.

Lemma sqrt_zero_or_nan (x : F64.t) :
  zero_or_nan x = true -> zero_or_nan (F64.sqrt x) = true.
Proof.
  destruct x as [sx|sx| |sx mx ex]; try discriminate; reflexivity.
Qed.

Lemma div_zero_or_nan (x n : F64.t) :
  zero_or_nan x = true -> zero_or_nan n = true -> x / n = F64.nan.
Proof.
  destruct x as [sx|sx| |sx mx ex]; try discriminate; intros _;
    destruct n as [sn|sn| |sn mn en]; try discriminate; reflexivity.
Qed.

Lemma dot3_zero_or_nan (m0 m1 m2 : F64.t) (R : vec3) :
  zero_or_nan (at0 R) = true ->
  zero_or_nan (at1 R) = true ->
  zero_or_nan (at2 R) = true ->
  zero_or_nan (dot3 m0 m1 m2 R) = true.
Proof.
  intros H0 H1 H2. unfold dot3.
  repeat apply add_zero_or_nan; apply mul_zero_or_nan; assumption.
Qed.

Lemma norm_zero_or_nan (v : vec3) :
  zero_or_nan (at0 v) = true ->
  zero_or_nan (at1 v) = true ->
  zero_or_nan (at2 v) = true ->
  zero_or_nan (norm v) = true.
Proof.
  intros H0 H1 H2. unfold norm.
  apply sqrt_zero_or_nan.
  repeat apply add_zero_or_nan; apply mul_zero_or_nan; assumption.
Qed.

(** The difference [R - R] has zero or NaN components, so has the rotated
    vector; its norm is zero or NaN, and each quotient is NaN. *)
Lemma sat_in_enu_diag (L : Libm) (R : vec3) :
  sat_in_enu L R R = Vec3 F64.nan F64.nan F64.nan.
Proof.
  unfold sat_in_enu. cbv zeta.
  set (D := vec3_sub R R).
  assert (H0 : zero_or_nan (at0 D) = true) by apply sub_diag_zero_or_nan.
  assert (H1 : zero_or_nan (at1 D) = true) by apply sub_diag_zero_or_nan.
  assert (H2 : zero_or_nan (at2 D) = true) by apply sub_diag_zero_or_nan.
  cbn [at0 at1 at2].
  rewrite !div_zero_or_nan;
    first [ reflexivity
          | apply norm_zero_or_nan; cbn [at0 at1 at2]
          | idtac ];
    apply dot3_zero_or_nan; assumption.
Qed.

(** X4.  When the target is the observer, [sat_in_enu] returns the
    vector [(NaN, NaN, NaN)], for every position, NaN and infinite
    coordinates included, and every mathematical library. *)
Theorem sat_in_enu_coincident_is_nan (L : Libm) (R : vec3) :
  sat_in_enu L R R = Vec3 F64.nan F64.nan F64.nan.
Proof. exact (sat_in_enu_diag L R). Qed.

(** X5.  When the target is the observer, [sat_az] returns NaN, and so
    does [sat_elev] when [arcsin] maps NaN to NaN, for both values of
    [deg]. *)
Theorem elevation_azimuth_coincident_are_nan (L : Libm) (HL : LibmSpec L)
  (arcsin : F64.t -> F64.t) (R : vec3) (deg : bool) :
  arcsin F64.nan = F64.nan ->
  sat_elev L arcsin R R deg = F64.nan /\ sat_az L R R deg = F64.nan.
Proof.
  intros Hasin. unfold sat_elev, sat_az. cbv zeta.
  rewrite sat_in_enu_diag. cbn [at0 at1 at2].
  rewrite Hasin, (atan2_nan L HL). destruct deg; split; reflexivity.
Qed.

Lemma elevation_azimuth_coincident_are_nan_witness :
  ref_arcsin F64.nan = F64.nan /\
  sat_elev RefLibm.ref_libm ref_arcsin sydney sydney true = F64.nan /\
  sat_az RefLibm.ref_libm sydney sydney true = F64.nan.
Proof.
  split; [reflexivity|].
  exact (elevation_azimuth_coincident_are_nan RefLibm.ref_libm ref_libm_spec
           ref_arcsin sydney true eq_refl).
Defined.

(** X6.  For an observer on the polar axis, [sat_az] returns NaN for
    every target, and so does [sat_elev] when [arcsin] maps NaN to NaN:
    the NaN latitude of [ecef_to_lat_lon_alt] reaches both angles. *)
Theorem elevation_azimuth_polar_observer_are_nan (L : Libm) (HL : LibmSpec L)
  (arcsin : F64.t -> F64.t) (Z : F64.t) (R_sat : vec3) (deg : bool) :
  arcsin F64.nan = F64.nan ->
  sat_elev L arcsin (Vec3 F64.zero F64.zero Z) R_sat deg = F64.nan /\
  sat_az L (Vec3 F64.zero F64.zero Z) R_sat deg = F64.nan.
Proof.
  intros Hasin.
  assert (Henu : sat_in_enu L (Vec3 F64.zero F64.zero Z) R_sat
                 = Vec3 F64.nan F64.nan F64.nan).
  { unfold sat_in_enu.
    rewrite ecef_to_lat_lon_alt_steps, (final_iterate_axis L HL).
    destruct (geodetic_of_nan L HL (Vec3 F64.zero F64.zero Z) false)
      as [Hlat _].
    rewrite Hlat, (sin_nan L HL), (cos_nan L HL).
    unfold norm, dot3; cbn [at0 at1 at2].
    replace (- F64.nan) with F64.nan by reflexivity.
    autorewrite with f64_nan.
    replace (F64.sqrt F64.nan) with F64.nan by reflexivity.
    autorewrite with f64_nan. reflexivity. }
  unfold sat_elev, sat_az. cbv zeta. rewrite Henu. cbn [at0 at1 at2].
  rewrite Hasin, (atan2_nan L HL). destruct deg; split; reflexivity.
Qed.

Lemma elevation_azimuth_polar_observer_are_nan_witness :
  ref_arcsin F64.nan = F64.nan /\
  sat_elev RefLibm.ref_libm ref_arcsin north_pole sample_satellite true
    = F64.nan /\
  sat_az RefLibm.ref_libm north_pole sample_satellite true = F64.nan.
Proof.
  split; [reflexivity|].
  exact (elevation_azimuth_polar_observer_are_nan RefLibm.ref_libm
           ref_libm_spec ref_arcsin (F64.lit 6356752.314245)
           sample_satellite true eq_refl).
Defined.

End Coincident.

(** ** When [ecef_to_lat_lon_alt1] returns *)

Section Returns.

Variable L : Libm.

Local Open Scope f64_scope.

Lemma lat_lon_alt1_fallback_none (R : vec3) :
  nan_fallback L R = true ->
  forall (depth : nat) (deg : bool), ecef_to_lat_lon_alt1 L depth R deg = None.
Proof.
  intros Hnan. induction depth as [|depth IH]; intros deg; [reflexivity|].
  change (ecef_to_lat_lon_alt1 L (S depth) R deg)
    with (lat_lon_alt1_body L (ecef_to_lat_lon_alt1 L depth) R deg).
  rewrite (lat_lon_alt1_body_fallback L _ R deg Hnan). apply IH.
Qed.

(** Without a NaN [delta] the result is built from the loop alone: the
    nesting bound and the function passed for the recursive call do not
    matter. *)
Lemma lat_lon_alt1_body_self_irrelevant
  (self self' : vec3 -> bool -> option vec3) (R : vec3) (deg : bool) :
  nan_fallback L R = false ->
  lat_lon_alt1_body L self R deg = lat_lon_alt1_body L self' R deg.
Proof.
  unfold nan_fallback, lat_lon_alt1_loop, lat_lon_alt1_body. cbv zeta.
  destruct (lat_lon_alt1_rounds L _ _ _ _ _ _ _) as [|Sn Cn].
  - discriminate.
  - reflexivity.
Qed.

(** X7.  [ecef_to_lat_lon_alt1] returns a result exactly when [delta] is
    not NaN at any round of its loop on [R]; it then returns at the first
    invocation, with the same result under every bound on the nesting of
    calls. *)
Theorem lat_lon_alt1_returns_iff (R : vec3) (deg : bool) :
  ((exists (depth : nat) (out : vec3),
      ecef_to_lat_lon_alt1 L depth R deg = Some out)
   <-> nan_fallback L R = false) /\
  (nan_fallback L R = false ->
   exists out : vec3,
     forall depth : nat, ecef_to_lat_lon_alt1 L (S depth) R deg = Some out).
Proof.
  assert (Hret : nan_fallback L R = false ->
                 exists out : vec3,
                   forall depth : nat,
                     ecef_to_lat_lon_alt1 L (S depth) R deg = Some out).
  { intros Hok.
    destruct (lat_lon_alt1_body_returns L (fun _ _ => None) R deg Hok)
      as [out Hout].
    exists out. intros depth.
    change (ecef_to_lat_lon_alt1 L (S depth) R deg)
      with (lat_lon_alt1_body L (ecef_to_lat_lon_alt1 L depth) R deg).
    rewrite <- Hout. apply lat_lon_alt1_body_self_irrelevant. exact Hok. }
  split; [split|exact Hret].
  - intros (depth & out & Hsome).
    destruct (nan_fallback L R) eqn:Hnan; [|reflexivity].
    rewrite (lat_lon_alt1_fallback_none R Hnan) in Hsome. discriminate.
  - intros Hok. destruct (Hret Hok) as [out Hout].
    exists 1%nat, out. apply Hout.
Qed.

End Returns.

Section NaNInputAlt1.

Variable L : Libm.
Hypothesis HL : LibmSpec L.

Local Open Scope f64_scope.

(** A NaN [S] or a NaN [C] makes [delta] NaN at once. *)
Lemma lat_lon_alt1_rounds_nan_S (rest i : nat) (Z P E C : F64.t) :
  lat_lon_alt1_rounds L rest i Z P E F64.nan C = Fallback.
Proof.
  destruct rest; cbn [lat_lon_alt1_rounds]; rewrite div_nan_r; reflexivity.
Qed.

Lemma lat_lon_alt1_rounds_nan_C (rest i : nat) (Z P E S : F64.t) :
  lat_lon_alt1_rounds L rest i Z P E S F64.nan = Fallback.
Proof.
  destruct rest; cbn [lat_lon_alt1_rounds];
    rewrite (div_nan_r S), sub_nan_r;
    change (F64.abs F64.nan) with F64.nan;
    rewrite mul_nan_l, div_nan_l; reflexivity.
Qed.

Lemma nan_fallback_nan_input (R : vec3) :
  has_nan R = true -> nan_fallback L R = true.
Proof.
  unfold has_nan. intros H.
  unfold nan_fallback, lat_lon_alt1_loop. cbv zeta.
  apply orb_true_iff in H. destruct H as [H|H].
  - assert (Hp : F64.sqrt (pow L (at0 R) F64.two + pow L (at1 R) F64.two)
                 = F64.nan) by exact (cyl_radius_nan L HL R H).
    rewrite Hp, div_nan_l, mul_nan_r, py_or_nan, lat_lon_alt1_rounds_nan_C.
    reflexivity.
  - rewrite (isnan_eq _ H).
    change (F64.abs F64.nan) with F64.nan.
    rewrite mul_nan_r, div_nan_l, py_or_nan, lat_lon_alt1_rounds_nan_S.
    reflexivity.
Qed.

End NaNInputAlt1.

(** X8.  A NaN in any coordinate of the input makes [delta] NaN at the
    first round of [ecef_to_lat_lon_alt1], and the call never returns,
    under any bound on the nesting of calls and for both values of
    [deg]. *)
Theorem lat_lon_alt1_nan_coordinate_never_returns (L : Libm)
  (HL : LibmSpec L) (R : vec3) :
  has_nan R = true ->
  nan_fallback L R = true /\
  forall (depth : nat) (deg : bool), ecef_to_lat_lon_alt1 L depth R deg = None.
Proof.
  intros H. pose proof (nan_fallback_nan_input L HL R H) as Hnan.
  split; [exact Hnan|]. apply lat_lon_alt1_fallback_none. exact Hnan.
Qed.

Lemma lat_lon_alt1_nan_coordinate_never_returns_witness :
  has_nan (Vec3 F64.zero F64.zero F64.nan) = true /\
  ecef_to_lat_lon_alt1 RefLibm.ref_libm 50
    (Vec3 F64.zero F64.zero F64.nan) false = None.
Proof.
  split; [reflexivity|].
  apply (lat_lon_alt1_nan_coordinate_never_returns RefLibm.ref_libm
           ref_libm_spec (Vec3 F64.zero F64.zero F64.nan) eq_refl).
Defined.

(** ** What [ecef_to_lat_lon_alt1] returns *)

Section Alt1Result.

Variable L : Libm.

Local Open Scope f64_scope.

(** A returned result comes from a loop left by [break]: its latitude is
    [sign(Z) * atan2(Sn, e' Cn)] and its longitude [atan2(Y, X)], both in
    degrees when [deg] is set. *)
Lemma lat_lon_alt1_result (depth : nat) (R out : vec3) (deg : bool) :
  ecef_to_lat_lon_alt1 L depth R deg = Some out ->
  exists Sn Cn : F64.t,
    lat_lon_alt1_loop L R = Break Sn Cn /\
    at0 out = angle_out deg
                (F64.sign (at2 R)
                 * atan2 L Sn
                     (F64.sqrt (F64.one
                                - pow L (F64.lit 0.08181919092890624) F64.two)
                      * Cn)) /\
    at1 out = angle_out deg (atan2 L (at1 R) (at0 R)).
Proof.
  intros Hsome.
  destruct (nan_fallback L R) eqn:Hnan.
  - rewrite (lat_lon_alt1_fallback_none L R Hnan) in Hsome. discriminate.
  - destruct depth as [|depth]; [discriminate|].
    change (ecef_to_lat_lon_alt1 L (S depth) R deg)
      with (lat_lon_alt1_body L (ecef_to_lat_lon_alt1 L depth) R deg)
      in Hsome.
    revert Hsome Hnan.
    unfold nan_fallback, lat_lon_alt1_loop, lat_lon_alt1_body. cbv zeta.
    destruct (lat_lon_alt1_rounds L _ _ _ _ _ _ _) as [|Sn Cn].
    + discriminate 2.
    + intros Hsome _. exists Sn, Cn. split; [reflexivity|].
      destruct deg; injection Hsome as <-; split; reflexivity.
Qed.

(** X9.  Whenever [ecef_to_lat_lon_alt1] returns, its longitude is the
    one [ecef_to_lat_lon_alt] and [ecef_to_spherical] return for the same
    input and the same [deg]: [atan2(Y, X)], whatever the iterations
    did. *)
Theorem solvers_agree_on_longitude (depth : nat) (R out : vec3) (deg : bool) :
  ecef_to_lat_lon_alt1 L depth R deg = Some out ->
  at1 out = at1 (ecef_to_lat_lon_alt L R deg) /\
  at1 out = at1 (ecef_to_spherical L R deg) /\
  at1 out = angle_out deg (atan2 L (at1 R) (at0 R)).
Proof.
  intros Hsome.
  destruct (lat_lon_alt1_result depth R out deg Hsome)
    as (Sn & Cn & _ & _ & Hlon).
  rewrite Hlon. unfold ecef_to_lat_lon_alt, ecef_to_spherical. cbv zeta.
  destruct deg; repeat split; reflexivity.
Qed.

Lemma mul_zero_or_nan_l (x y : F64.t) :
  zero_or_nan x = true -> zero_or_nan (x * y) = true.
Proof.
  destruct x as [sx|sx| |sx mx ex]; try discriminate; intros _;
    destruct y; reflexivity.
Qed.

Lemma sign_zero (x : F64.t) :
  F64.eqb x F64.zero = true -> F64.sign x = F64.zero.
Proof.
  destruct x as [[]|[]| |[] m e]; try discriminate; reflexivity.
Qed.

(** X10.  For an input of the equatorial plane, [Z] a zero of either
    sign, a result of [ecef_to_lat_lon_alt1] has a latitude that is a zero
    or NaN, in degrees and in radians: the latitude is the product of
    [sign(Z)], which is zero, and an angle. *)
Theorem lat_lon_alt1_equatorial_latitude (depth : nat) (R out : vec3)
  (deg : bool) :
  F64.eqb (at2 R) F64.zero = true ->
  ecef_to_lat_lon_alt1 L depth R deg = Some out ->
  zero_or_nan (at0 out) = true.
Proof.
  intros Hz Hsome.
  destruct (lat_lon_alt1_result depth R out deg Hsome)
    as (Sn & Cn & _ & Hlat & _).
  rewrite Hlat, (sign_zero _ Hz).
  destruct deg; cbn [angle_out]; unfold F64.degrees;
    repeat apply mul_zero_or_nan_l; reflexivity.
Qed.

End Alt1Result.

Lemma solvers_agree_on_longitude_witness :
  exists out : vec3,
    ecef_to_lat_lon_alt1 RefLibm.ref_libm 1 sydney true = Some out /\
    at1 out = at1 (ecef_to_lat_lon_alt RefLibm.ref_libm sydney true) /\
    at1 out = at1 (ecef_to_spherical RefLibm.ref_libm sydney true).
Proof.
  assert (H : exists out : vec3,
             ecef_to_lat_lon_alt1 RefLibm.ref_libm 1 sydney true = Some out)
    by (eexists; vm_compute; reflexivity).
  destruct H as [out H]. exists out. split; [exact H|].
  destruct (solvers_agree_on_longitude RefLibm.ref_libm 1 sydney out true H)
    as (H1 & H2 & _).
  split; assumption.
Defined.

Lemma lat_lon_alt1_equatorial_latitude_witness :
  exists out : vec3,
    ecef_to_lat_lon_alt1 RefLibm.ref_libm 1
      (Vec3 (F64.lit 6378137.0) F64.zero F64.zero) true = Some out /\
    zero_or_nan (at0 out) = true.
Proof.
  assert (H : exists out : vec3,
             ecef_to_lat_lon_alt1 RefLibm.ref_libm 1
               (Vec3 (F64.lit 6378137.0) F64.zero F64.zero) true = Some out)
    by (eexists; vm_compute; reflexivity).
  destruct H as [out H]. exists out. split; [exact H|].
  exact (lat_lon_alt1_equatorial_latitude RefLibm.ref_libm 1
           (Vec3 (F64.lit 6378137.0) F64.zero F64.zero) out true eq_refl H).
Defined.

(** ** An infinite seed *)

(** X11.  Whenever the seed of [ecef_to_lat_lon_alt] is infinite, by a
    zero radius [p] under a non-zero [Z], an infinite [Z] or a quotient
    that overflows, the first round makes the iterate NaN and the latitude
    and the altitude returned are NaN. *)
Theorem infinite_seed_gives_nan (L : Libm) (HL : LibmSpec L)
  (R : vec3) (deg : bool) :
  RefLibm.is_inf (seed L R) = true ->
  at0 (ecef_to_lat_lon_alt L R deg) = F64.nan /\
  at2 (ecef_to_lat_lon_alt L R deg) = F64.nan.
Proof.
  intros Hinf.
  assert (Hfin : final_iterate L R = F64.nan).
  { unfold final_iterate.
    destruct (seed L R) as [s|s| |s m e]; try discriminate.
    apply lat_lon_alt_rounds_inf. exact HL. }
  rewrite ecef_to_lat_lon_alt_steps, Hfin.
  apply geodetic_of_nan. exact HL.
Qed.

Lemma infinite_seed_gives_nan_witness :
  RefLibm.is_inf
    (seed RefLibm.ref_libm (Vec3 (F64.lit 1e-10) F64.zero (F64.lit 1e300)))
    = true /\
  at0 (ecef_to_lat_lon_alt RefLibm.ref_libm
         (Vec3 (F64.lit 1e-10) F64.zero (F64.lit 1e300)) true) = F64.nan /\
  at2 (ecef_to_lat_lon_alt RefLibm.ref_libm
         (Vec3 (F64.lit 1e-10) F64.zero (F64.lit 1e300)) true) = F64.nan.
Proof.
  split; [vm_compute; reflexivity|].
  apply (infinite_seed_gives_nan RefLibm.ref_libm ref_libm_spec
           (Vec3 (F64.lit 1e-10) F64.zero (F64.lit 1e300)) true).
  vm_compute; reflexivity.
Defined.

(** ** NaN through the forward transform *)

(** X12.  A NaN in any coordinate of the input of
    [lat_lon_alt_to_ecef_xyz] makes [X] and [Y] NaN; a NaN latitude or
    altitude makes [Z] NaN as well, while a NaN longitude alone leaves [Z]
    as it is for the same latitude and altitude. *)
Theorem forward_nan_coordinate (L : Libm) (HL : LibmSpec L) (R : vec3) :
  has_nan R = true ->
  at0 (lat_lon_alt_to_ecef_xyz L R) = F64.nan /\
  at1 (lat_lon_alt_to_ecef_xyz L R) = F64.nan /\
  (F64.isnan (at0 R) || F64.isnan (at2 R) = true ->
   at2 (lat_lon_alt_to_ecef_xyz L R) = F64.nan) /\
  (forall lon : F64.t,
     at2 (lat_lon_alt_to_ecef_xyz L (Vec3 (at0 R) lon (at2 R)))
       = at2 (lat_lon_alt_to_ecef_xyz L R)).
Proof.
  unfold has_nan. intros H.
  unfold lat_lon_alt_to_ecef_xyz. cbv zeta. cbn [at0 at1 at2].
  assert (Hdeg : F64.deg2rad F64.nan = F64.nan) by reflexivity.
  split; [|split; [|split]].
  - apply orb_true_iff in H. destruct H as [H|H];
      [apply orb_true_iff in H; destruct H as [H|H]|];
      rewrite (isnan_eq _ H); rewrite ?Hdeg, ?(cos_nan L HL);
      autorewrite with f64_nan; reflexivity.
  - apply orb_true_iff in H. destruct H as [H|H];
      [apply orb_true_iff in H; destruct H as [H|H]|];
      rewrite (isnan_eq _ H); rewrite ?Hdeg, ?(cos_nan L HL), ?(sin_nan L HL);
      autorewrite with f64_nan; reflexivity.
  - intros H'. apply orb_true_iff in H'. destruct H' as [H'|H'];
      rewrite (isnan_eq _ H'); rewrite ?Hdeg, ?(sin_nan L HL);
      autorewrite with f64_nan; reflexivity.
  - intros lon. reflexivity.
Qed.

Lemma forward_nan_coordinate_witness :
  has_nan (Vec3 (F64.lit 45) F64.nan (F64.lit 1000)) = true /\
  at0 (lat_lon_alt_to_ecef_xyz RefLibm.ref_libm
         (Vec3 (F64.lit 45) F64.nan (F64.lit 1000))) = F64.nan /\
  at1 (lat_lon_alt_to_ecef_xyz RefLibm.ref_libm
         (Vec3 (F64.lit 45) F64.nan (F64.lit 1000))) = F64.nan.
Proof.
  split; [reflexivity|].
  destruct (forward_nan_coordinate RefLibm.ref_libm ref_libm_spec
              (Vec3 (F64.lit 45) F64.nan (F64.lit 1000)) eq_refl)
    as (H0 & H1 & _).
  split; assumption.
Defined.

(** ** The [deg] flag and the NaN fallback *)



